(** * Barrier option pricing script: a shallow embedding of [barrier_streamlit.py]

    The script reads nine widget values, builds a Black-Scholes-Merton
    process and a barrier option from QuantLib value objects, asks
    QuantLib's analytic barrier engine for the price and the Greeks, and
    draws a terminal payoff diagram with a loop of its own.

    Python floats are IEEE binary64 numbers: they are modelled by Rocq's
    primitive [float], so comparisons with NaN and signed zeros behave as
    they do in Python.  QuantLib's value objects are records holding what
    the script passes to their constructors; the date constructor raises
    on what is not a date of the library.  The numerical engine is not
    part of the script: it is an interface ([ql.Engine]) whose methods may
    raise, and the script is a program in a state-and-exception monad over
    QuantLib's global settings.  What the library's own engine does around
    its closed formula (expiry, the checks on strike, spot and barrier,
    the Greeks it does not provide) is written down as [library_engine],
    with the formula as a parameter. *)

From Stdlib Require Import ZArith QArith String Floats List Bool.
From stdpp Require Import base option gmap strings pretty.
Import ListNotations.

Local Open Scope string_scope.
Local Open Scope list_scope.
#[local] Set Warnings "-inexact-float".

(** ** Python values *)

(** The numbers stored in [payoff_vals]: the int literal [0] or a float. *)
Inductive pynum : Type :=
| PyInt (n : Z)
| PyFloat (x : float).

(** [float(v)]: the numeric value of a Python number as a binary64. *)
Definition py_float (v : pynum) : float :=
  match v with
  | PyInt n => SF2Prim (binary_normalize prec emax n 0 false)
  | PyFloat x => x
  end.

(** [max(a, 0)] for a float [a]: Python's [max] keeps its first argument
    unless a later one is strictly greater, so the int [0] is returned
    exactly when [0 > a]; a NaN is returned as it is. *)
Definition py_max0 (a : float) : pynum :=
  if (a <? 0)%float then PyInt 0 else PyFloat a.

(** [sub in s] on strings: [sub] occurs in [s] as a contiguous substring. *)
Fixpoint str_in (sub s : string) : bool :=
  String.prefix sub s ||
  match s with
  | EmptyString => false
  | String _ s' => str_in sub s'
  end.

(** [datetime.date], the value of the "Maturity Date" widget. *)
Record pydate : Type := mk_pydate { year : Z; month : Z; day : Z }.

(** Exceptions the script can end with. *)
Inductive exn : Type :=
| KeyError (key : string)
| RuntimeError (msg : string).

Inductive result (A : Type) : Type :=
| Ok (a : A)
| Raise (e : exn).
Arguments Ok {A} a.
Arguments Raise {A} e.

(** ** QuantLib value objects

    Each class the script instantiates is a record of the constructor's
    arguments; a constructor is a function of the same name as in the
    script, and it stores what it is given; the one constructor of the
    script that checks its arguments is [Date].  The library checks market
    data when an instrument is calculated, which is the part of the methods
    of [Engine] below.  Defaulted constructor arguments take the library's
    declared default. *)

Module ql.

(** A date of the library: day of the month, month, year. *)
Record date : Type := mk_date { dayOfMonth : Z; month : Z; year : Z }.

(** Leap years; over the years the library represents, 1901 to 2199, its
    table of leap years is the Gregorian one. *)
Definition isLeap (y : Z) : bool :=
  ((y mod 4 =? 0)%Z && negb (y mod 100 =? 0)%Z) || (y mod 400 =? 0)%Z.

Definition monthLength (m : Z) (leap : bool) : Z :=
  if (m =? 2)%Z then (if leap then 29 else 28)%Z
  else if ((m =? 4) || (m =? 6) || (m =? 9) || (m =? 11))%Z then 30%Z
  else 31%Z.

(** [ql.Date(d, m, y)]: the constructor accepts the days of the calendar
    from 1 January 1901 to 31 December 2199 and raises on anything else,
    the year first, then the month, then the day. *)
Definition Date (d m y : Z) : result date :=
  if negb ((1900 <? y) && (y <? 2200))%Z then
    Raise (RuntimeError
      ("year " +:+ pretty y +:+ " out of bound. It must be in [1901,2199]"))
  else if negb ((0 <? m) && (m <? 13))%Z then
    Raise (RuntimeError
      ("month " +:+ pretty m +:+ " outside January-December range [1,12]"))
  else if negb ((d <=? monthLength m (isLeap y)) && (0 <? d))%Z then
    Raise (RuntimeError
      ("day outside month (" +:+ pretty m +:+ ") day-range [1,"
       +:+ pretty (monthLength m (isLeap y)) +:+ "]"))
  else Ok (mk_date d m y).

Inductive DayCounter : Type := Actual365Fixed_.
Definition Actual365Fixed : DayCounter := Actual365Fixed_.

Inductive Calendar : Type := NullCalendar_.
Definition NullCalendar : Calendar := NullCalendar_.

Inductive Compounding : Type :=
| Simple | Compounded | Continuous | SimpleThenCompounded.
Inductive Frequency : Type := Annual | Semiannual | Quarterly | Monthly.

(** Modelled from the spec: the library's date arithmetic is missing from
    the repository.  Dates are counted in calendar days of the proleptic
    Gregorian calendar, numbered so that 1 January 1901 is day 367. *)
Definition serialNumber (d : date) : Z :=
  let y := if (month d <=? 2)%Z then (year d - 1)%Z else year d in
  let era := (y / 400)%Z in
  let yoe := (y - era * 400)%Z in
  let mp := ((month d + 9) mod 12)%Z in
  let doy := ((153 * mp + 2) / 5 + dayOfMonth d - 1)%Z in
  let doe := (yoe * 365 + yoe / 4 - yoe / 100 + doy)%Z in
  (era * 146097 + doe - 693899)%Z.

Definition daysBetween (d1 d2 : date) : Z := (serialNumber d2 - serialNumber d1)%Z.

(** Modelled from the spec: the Actual/365 (Fixed) day counter is missing
    from the repository; its fraction of a year is the number of calendar
    days from [d1] to [d2] divided by 365. *)
Definition yearFraction (dc : DayCounter) (d1 d2 : date) : Q :=
  match dc with
  | Actual365Fixed_ => Qmake (daysBetween d1 d2) 365
  end.

(** Handles are one-field wrappers around the object they link to. *)
Record Handle (A : Type) : Type := mk_handle { currentLink : A }.
Arguments mk_handle {A} _.
Arguments currentLink {A} _.

Record simple_quote : Type := mk_quote { value : float }.
Definition SimpleQuote (v : float) : simple_quote := mk_quote v.
Definition QuoteHandle (q : simple_quote) : Handle simple_quote := mk_handle q.

Record flat_forward : Type := mk_flat_forward {
  ff_referenceDate : date;
  ff_forward : float;
  ff_dayCounter : DayCounter;
  ff_compounding : Compounding;
  ff_frequency : Frequency
}.
(** [FlatForward(referenceDate, forward, dayCounter)]: compounding and
    frequency are left to their defaults, Continuous and Annual. *)
Definition FlatForward (d : date) (forward : float) (dc : DayCounter) : flat_forward :=
  mk_flat_forward d forward dc Continuous Annual.
Definition YieldTermStructureHandle (c : flat_forward) : Handle flat_forward :=
  mk_handle c.

Record black_constant_vol : Type := mk_black_constant_vol {
  bv_referenceDate : date;
  bv_calendar : Calendar;
  bv_volatility : float;
  bv_dayCounter : DayCounter
}.
Definition BlackConstantVol (d : date) (cal : Calendar) (v : float) (dc : DayCounter)
  : black_constant_vol := mk_black_constant_vol d cal v dc.
Definition BlackVolTermStructureHandle (v : black_constant_vol)
  : Handle black_constant_vol := mk_handle v.

(** [BlackScholesMertonProcess(x0, dividendTS, riskFreeTS, blackVolTS)]. *)
Record bsm_process : Type := mk_process {
  x0 : Handle simple_quote;
  dividendTS : Handle flat_forward;
  riskFreeTS : Handle flat_forward;
  blackVolTS : Handle black_constant_vol
}.
Definition BlackScholesMertonProcess := mk_process.

Module Barrier.
Inductive type : Type := DownIn | UpIn | DownOut | UpOut.
End Barrier.

Module Option.
Inductive type : Type := Put | Call.
End Option.

Record plain_vanilla_payoff : Type := mk_payoff {
  optionType : Option.type;
  po_strike : float
}.
Definition PlainVanillaPayoff := mk_payoff.

Record european_exercise : Type := mk_exercise { lastDate : date }.
Definition EuropeanExercise := mk_exercise.

Record analytic_barrier_engine : Type := mk_engine { process : bsm_process }.
Definition AnalyticBarrierEngine := mk_engine.

(** [BarrierOption(barrierType, barrier, rebate, payoff, exercise)]; a new
    instrument has no pricing engine. *)
Record barrier_option : Type := mk_option {
  barrierType : Barrier.type;
  bo_barrier : float;
  rebate : float;
  payoff : plain_vanilla_payoff;
  exercise : european_exercise;
  pricingEngine : option analytic_barrier_engine
}.
Definition BarrierOption (bt : Barrier.type) (b r : float)
    (p : plain_vanilla_payoff) (e : european_exercise) : barrier_option :=
  mk_option bt b r p e None.

(** [option.setPricingEngine(e)] mutates the instrument: the updated
    object is returned. *)
Definition setPricingEngine (o : barrier_option) (e : analytic_barrier_engine)
  : barrier_option :=
  mk_option (barrierType o) (bo_barrier o) (rebate o) (payoff o) (exercise o) (Some e).

(** [ql.Settings.instance()]: the library's global state.  The evaluation
    date is the only setting the script ever writes. *)
Record Settings : Type := mk_settings { evaluationDate : date }.

(** An instrument is expired when its exercise date is not after the
    evaluation date. *)
Definition expired (st : Settings) (o : barrier_option) : bool :=
  (serialNumber (lastDate (exercise o)) <=? serialNumber (evaluationDate st))%Z.

(** The barrier is touched when the underlying is strictly beyond it: below
    for the Down kinds, above for the Up kinds. *)
Definition triggered (o : barrier_option) (underlying : float) : bool :=
  match barrierType o with
  | Barrier.DownIn | Barrier.DownOut => (underlying <? bo_barrier o)%float
  | Barrier.UpIn | Barrier.UpOut => (bo_barrier o <? underlying)%float
  end.

(** The numerical methods of an instrument with its engine attached.  They
    belong to the library, not to the script: each reads the global
    settings and the instrument, and returns a float or raises. *)
Class Engine : Type := {
  NPV : Settings -> barrier_option -> result float;
  delta : Settings -> barrier_option -> result float;
  gamma : Settings -> barrier_option -> result float;
  vega : Settings -> barrier_option -> result float;
  theta : Settings -> barrier_option -> result float;
  rho : Settings -> barrier_option -> result float
}.

End ql.

(** ** The script monad: global settings and exceptions *)

Definition Script (A : Type) : Type := ql.Settings -> ql.Settings * result A.

Definition ret {A} (a : A) : Script A := fun st => (st, Ok a).

Definition raise {A} (e : exn) : Script A := fun st => (st, Raise e).

Definition bind {A B} (c : Script A) (k : A -> Script B) : Script B :=
  fun st =>
    match c st with
    | (st', Ok a) => k a st'
    | (st', Raise e) => (st', Raise e)
    end.

(** A constructor that may raise. *)
Definition lift {A} (r : result A) : Script A := fun st => (st, r).

(** A library call: it reads the settings and leaves them as they are. *)
Definition call {A} (f : ql.Settings -> result A) : Script A :=
  fun st => (st, f st).

(** [ql.Settings.instance().evaluationDate = d]. *)
Definition set_evaluationDate (d : ql.date) : Script unit :=
  fun _ => (ql.mk_settings d, Ok tt).

Notation "x <- c ;; k" := (bind c (fun x => k))
  (at level 100, c at next level, right associativity).
Notation "c ;; k" := (bind c (fun _ => k))
  (at level 100, right associativity).

(** [m[k]] on a dict: the value stored under [k], or [KeyError]. *)
Definition getitem {A} (m : gmap string A) (k : string) : Script A :=
  match m !! k with
  | Some v => ret v
  | None => raise (KeyError k)
  end.

(** ** The script *)

(** The sidebar widgets (lines 10-19). *)
Record Inputs : Type := mk_inputs {
  spot : float;
  strike : float;
  barrier : float;
  risk_free : float;
  vol : float;
  dividend : float;
  option_type : string;
  barrier_type_str : string;
  maturity : pydate
}.

(** The options offered by the two select boxes (lines 16-17). *)
Definition option_type_options : list string := ["Call"; "Put"].
Definition barrier_type_options : list string :=
  ["Up-Out"; "Up-In"; "Down-Out"; "Down-In"].

(** What the script displays (lines 49-54). *)
Record Results : Type := mk_results {
  price : float;
  delta : float;
  gamma : float;
  vega : float;
  theta : float;
  rho : float
}.

(** Lines 34-39. *)
Definition barrier_map : gmap string ql.Barrier.type :=
  list_to_map
    [ ("Up-Out", ql.Barrier.UpOut);
      ("Up-In", ql.Barrier.UpIn);
      ("Down-Out", ql.Barrier.DownOut);
      ("Down-In", ql.Barrier.DownIn) ].

(** Lines 27-31: the market data, anchored at [today]. *)
Definition market_data (today : ql.date) (inp : Inputs) : ql.bsm_process :=
  let spot_handle := ql.QuoteHandle (ql.SimpleQuote (spot inp)) in
  let r_handle :=
    ql.YieldTermStructureHandle (ql.FlatForward today (risk_free inp) ql.Actual365Fixed) in
  let d_handle :=
    ql.YieldTermStructureHandle (ql.FlatForward today (dividend inp) ql.Actual365Fixed) in
  let vol_handle :=
    ql.BlackVolTermStructureHandle
      (ql.BlackConstantVol today ql.NullCalendar (vol inp) ql.Actual365Fixed) in
  ql.BlackScholesMertonProcess spot_handle d_handle r_handle vol_handle.

(** Lines 22-47: from the widgets to the instrument with its engine.
    [today] is the value of [ql.Date.todaysDate()]. *)
Definition setup (today : ql.date) (inp : Inputs) : Script ql.barrier_option :=
  set_evaluationDate today ;;
  ql_maturity <-
    lift (ql.Date (day (maturity inp)) (month (maturity inp)) (year (maturity inp))) ;;
  let process := market_data today inp in
  bar_type <- getitem barrier_map (barrier_type_str inp) ;;
  let ql_option_type :=
    if String.eqb (option_type inp) "Call" then ql.Option.Call else ql.Option.Put in
  let payoff := ql.PlainVanillaPayoff ql_option_type (strike inp) in
  let exercise := ql.EuropeanExercise ql_maturity in
  let option := ql.BarrierOption bar_type (barrier inp) 0%float payoff exercise in
  let option := ql.setPricingEngine option (ql.AnalyticBarrierEngine process) in
  ret option.

Section Pricing.

Context {engine : ql.Engine}.

(** [x != 0] on floats. *)
Definition nonzero (x : float) : bool := negb (x =? 0)%float.

(** Lines 49-54: the price, then each Greek behind the [price != 0] test. *)
Definition pricing (option : ql.barrier_option) : Script Results :=
  price <- call (fun st => ql.NPV st option) ;;
  delta <- (if nonzero price then call (fun st => ql.delta st option) else ret 0%float) ;;
  gamma <- (if nonzero price then call (fun st => ql.gamma st option) else ret 0%float) ;;
  vega <- (if nonzero price then call (fun st => ql.vega st option) else ret 0%float) ;;
  theta <- (if nonzero price then call (fun st => ql.theta st option) else ret 0%float) ;;
  rho <- (if nonzero price then call (fun st => ql.rho st option) else ret 0%float) ;;
  ret (mk_results price delta gamma vega theta rho).

(** Lines 22-54. *)
Definition run (today : ql.date) (inp : Inputs) : Script Results :=
  option <- setup today inp ;;
  pricing option.

End Pricing.

(** ** Payoff diagram (lines 65-82) *)

(** The body of the [for s in S] loop: the value appended for one [s]. *)
Definition payoff_at (barrier_type_str option_type : string)
    (strike barrier s : float) : pynum :=
  let knocked_out := false in
  let knocked_out :=
    if str_in "Up-Out" barrier_type_str && (barrier <=? s)%float
    then true else knocked_out in
  let knocked_out :=
    if str_in "Down-Out" barrier_type_str && (s <=? barrier)%float
    then true else knocked_out in
  if knocked_out then PyInt 0
  else if String.eqb option_type "Call"
       then py_max0 (s - strike)%float
       else py_max0 (strike - s)%float.

(** The loop itself: [payoff_vals] starts empty and grows by one [append]
    per grid point, in grid order. *)
Definition payoff_vals (barrier_type_str option_type : string)
    (strike barrier : float) (S : list float) : list pynum :=
  fold_left
    (fun acc s => acc ++ [payoff_at barrier_type_str option_type strike barrier s])
    S [].

Section Plot.

(** [np.linspace(start, stop, num)] belongs to numpy: the grid it returns
    is taken as given. *)
Variable linspace : float -> float -> Z -> list float.

(** Lines 66-82. *)
Definition payoff_plot (inp : Inputs) : list float * list pynum :=
  let S := linspace (0.5 * spot inp)%float (1.5 * spot inp)%float 200 in
  (S, payoff_vals (barrier_type_str inp) (option_type inp) (strike inp) (barrier inp) S).

End Plot.

(** ** The figure (lines 84-88)

    Plotly's objects, like QuantLib's, are records of what the script hands
    to them. *)

Module go.

(** [go.Scatter(x=..., y=..., mode=..., name=...)]. *)
Record scatter : Type := mk_scatter {
  x : list float;
  y : list pynum;
  mode : string;
  name : string
}.
Definition Scatter := mk_scatter.

Record figure : Type := mk_figure {
  data : list scatter;
  title : option string;
  xaxis_title : option string;
  yaxis_title : option string
}.

(** [go.Figure()]: no trace, no title. *)
Definition Figure : figure := mk_figure [] None None None.

(** [fig.add_trace(t)]: the trace is added after those already there. *)
Definition add_trace (fig : figure) (t : scatter) : figure :=
  mk_figure (data fig ++ [t]) (title fig) (xaxis_title fig) (yaxis_title fig).

(** [fig.update_layout(title=..., xaxis_title=..., yaxis_title=...)]. *)
Definition update_layout (fig : figure) (t xt yt : string) : figure :=
  mk_figure (data fig) (Some t) (Some xt) (Some yt).

End go.

Section App.

Context {engine : ql.Engine}.
Variable linspace : float -> float -> Z -> list float.

(** Lines 66-88: the grid, the loop and the figure handed to
    [st.plotly_chart]. *)
Definition draw (inp : Inputs) : go.figure :=
  let S := fst (payoff_plot linspace inp) in
  let payoff_vals := snd (payoff_plot linspace inp) in
  let fig := go.Figure in
  let fig := go.add_trace fig (go.Scatter S payoff_vals "lines" "Payoff") in
  go.update_layout fig "Barrier Option Payoff" "Underlying Price S" "Payoff".

(** The script from line 22 to its end: the six numbers it writes, then
    the figure.  An exception ends it where it is raised. *)
Definition script (today : ql.date) (inp : Inputs) : Script (Results * go.figure) :=
  res <- run today inp ;;
  ret (res, draw inp).

End App.

(** ** The payoff policy as the specification words it *)

(** The labels of the two select boxes. *)
Definition kind_label (k : ql.Barrier.type) : string :=
  match k with
  | ql.Barrier.UpOut => "Up-Out"
  | ql.Barrier.UpIn => "Up-In"
  | ql.Barrier.DownOut => "Down-Out"
  | ql.Barrier.DownIn => "Down-In"
  end.

Definition option_label (t : ql.Option.type) : string :=
  match t with ql.Option.Call => "Call" | ql.Option.Put => "Put" end.

(** Threshold test: an Up kind is knocked at or above the level, a Down
    kind at or below it. *)
Definition knocked (k : ql.Barrier.type) (level s : float) : bool :=
  match k with
  | ql.Barrier.UpIn | ql.Barrier.UpOut => (level <=? s)%float
  | ql.Barrier.DownIn | ql.Barrier.DownOut => (s <=? level)%float
  end.

Definition is_out (k : ql.Barrier.type) : bool :=
  match k with
  | ql.Barrier.UpOut | ql.Barrier.DownOut => true
  | ql.Barrier.UpIn | ql.Barrier.DownIn => false
  end.

(** max(x, 0) on floats; a NaN stays a NaN, as with Python's [max]. *)
Definition fmax0 (x : float) : float := if (x <? 0)%float then 0%float else x.

(** Vanilla intrinsic value: max(S-K,0) for a call, max(K-S,0) for a put. *)
Definition intrinsic (t : ql.Option.type) (K s : float) : float :=
  match t with
  | ql.Option.Call => fmax0 (s - K)
  | ql.Option.Put => fmax0 (K - s)
  end.

(** Out kinds pay 0 once knocked; every other case pays the intrinsic value. *)
Definition payoffAt (k : ql.Barrier.type) (t : ql.Option.type) (K level s : float) : float :=
  if is_out k && knocked k level s then 0%float else intrinsic t K s.

(** ** Engines with fixed answers

    Stand-ins for the library's engine, used to run the script on concrete
    inputs: [constant_engine] answers every query with the given numbers,
    whatever the instrument. *)
Definition constant_engine (p d g v t r : float) : ql.Engine :=
  {| ql.NPV := fun _ _ => Ok p;
     ql.delta := fun _ _ => Ok d;
     ql.gamma := fun _ _ => Ok g;
     ql.vega := fun _ _ => Ok v;
     ql.theta := fun _ _ => Ok t;
     ql.rho := fun _ _ => Ok r |}.

(** An engine that prices but provides no Greeks. *)
Definition price_only_engine (p : float) : ql.Engine :=
  {| ql.NPV := fun _ _ => Ok p;
     ql.delta := fun _ _ => Raise (RuntimeError "delta not provided");
     ql.gamma := fun _ _ => Raise (RuntimeError "gamma not provided");
     ql.vega := fun _ _ => Raise (RuntimeError "vega not provided");
     ql.theta := fun _ _ => Raise (RuntimeError "theta not provided");
     ql.rho := fun _ _ => Raise (RuntimeError "rho not provided") |}.

(** ** The library's engine at the edges

    What the calculation of the library does before and after its closed
    formula, with the formula itself left as the parameter [value].  An
    expired instrument is worth 0 and so are its Greeks; a live one needs
    an engine, a positive strike, a positive spot and an untouched
    barrier, and gets the value of the formula; the analytic barrier
    engine provides no Greek. *)
Definition library_NPV (value : ql.Settings -> ql.barrier_option -> float)
    (st : ql.Settings) (o : ql.barrier_option) : result float :=
  if ql.expired st o then Ok 0%float
  else match ql.pricingEngine o with
       | None => Raise (RuntimeError "null pricing engine")
       | Some e =>
           if negb (0 <? ql.po_strike (ql.payoff o))%float then
             Raise (RuntimeError "strike must be positive")
           else if negb (0 <? ql.value (ql.currentLink (ql.x0 (ql.process e))))%float then
             Raise (RuntimeError "negative or null underlying given")
           else if ql.triggered o (ql.value (ql.currentLink (ql.x0 (ql.process e)))) then
             Raise (RuntimeError "barrier touched")
           else Ok (value st o)
       end.

Definition library_greek (name : string)
    (value : ql.Settings -> ql.barrier_option -> float)
    (st : ql.Settings) (o : ql.barrier_option) : result float :=
  match library_NPV value st o with
  | Raise e => Raise e
  | Ok _ =>
      if ql.expired st o then Ok 0%float
      else Raise (RuntimeError (name +:+ " not provided"))
  end.

Definition library_engine (value : ql.Settings -> ql.barrier_option -> float)
  : ql.Engine :=
  {| ql.NPV := library_NPV value;
     ql.delta := library_greek "delta" value;
     ql.gamma := library_greek "gamma" value;
     ql.vega := library_greek "vega" value;
     ql.theta := library_greek "theta" value;
     ql.rho := library_greek "rho" value |}.

(** Three properties of an engine the theorems below take as hypotheses. *)
Definition expired_is_worthless (E : ql.Engine) : Prop :=
  forall st o, ql.expired st o = true -> @ql.NPV E st o = Ok 0%float.

Definition no_delta_for_a_price (E : ql.Engine) : Prop :=
  forall st o p,
    @ql.NPV E st o = Ok p -> (p =? 0)%float = false ->
    exists e, @ql.delta E st o = Raise e.

Definition rejects_nonpositive_spot (E : ql.Engine) : Prop :=
  forall st o e,
    ql.pricingEngine o = Some e -> ql.expired st o = false ->
    (0 <? ql.value (ql.currentLink (ql.x0 (ql.process e))))%float = false ->
    exists msg, @ql.NPV E st o = Raise (RuntimeError msg).

(** A closed formula that answers 7 everywhere, in place of the library's. *)
Definition sample_value (st : ql.Settings) (o : ql.barrier_option) : float := 7%float.

(** Sample widget values: the defaults of lines 10-17 with a chosen
    maturity. *)
Definition default_inputs (m : pydate) : Inputs :=
  mk_inputs 100 100 120 0.01 0.2 0 "Call" "Down-Out" m.

(** An engine whose calculation fails, whatever is asked. *)
Definition failing_engine (msg : string) : ql.Engine :=
  {| ql.NPV := fun _ _ => Raise (RuntimeError msg);
     ql.delta := fun _ _ => Raise (RuntimeError msg);
     ql.gamma := fun _ _ => Raise (RuntimeError msg);
     ql.vega := fun _ _ => Raise (RuntimeError msg);
     ql.theta := fun _ _ => Raise (RuntimeError msg);
     ql.rho := fun _ _ => Raise (RuntimeError msg) |}.

(** A grid of the two end points only, in place of numpy's. *)
Definition end_points (start stop : float) (num : Z) : list float := [start; stop].

(** A run date and the widget dates used in the examples. *)
Definition sample_today : ql.date := ql.mk_date 4 11 2026.
Definition same_day : pydate := mk_pydate 2026 11 4.
Definition day_before : pydate := mk_pydate 2026 11 3.
Definition year_later : pydate := mk_pydate 2027 11 4.

(** Settings left behind by an earlier run, on another day. *)
Definition earlier_settings : ql.Settings := ql.mk_settings (ql.mk_date 1 1 2026).

(** An engine whose every answer is a NaN. *)
Definition nan_engine : ql.Engine := constant_engine nan nan nan nan nan nan.

(** A maturity the library cannot represent. *)
Definition far_future : pydate := mk_pydate 2200 1 1.

(** A call in the money at a maturity equal to the day of the run: spot
    110, strike 100, below the Up-Out barrier 120. *)
Definition in_the_money_inputs : Inputs :=
  mk_inputs 110 100 120 0.01 0.2 0 "Call" "Up-Out" same_day.

(** Widget values with a negative spot and a negative volatility. *)
Definition negative_inputs : Inputs :=
  mk_inputs (-1) 100 120 0.01 (-0.2) 0 "Call" "Up-Out" year_later.

(** An instrument as line 46 builds it, with the default widget values
    and the barrier at 90. *)
Definition sample_option : ql.barrier_option :=
  ql.BarrierOption ql.Barrier.DownOut 90 0
    (ql.PlainVanillaPayoff ql.Option.Call 100)
    (ql.EuropeanExercise (ql.mk_date 4 11 2027)).

(** * Properties of the payoff diagram *)

Lemma py_float_max0 (a : float) : py_float (py_max0 a) = fmax0 a.
Proof. unfold py_max0, fmax0. destruct (a <? 0)%float; reflexivity. Qed.

Lemma payoff_vals_snoc kind ty K B (S : list float) (pre : list pynum) :
  fold_left (fun acc s => acc ++ [payoff_at kind ty K B s]) S pre
  = pre ++ List.map (payoff_at kind ty K B) S.
Proof.
  revert pre. induction S as [|s S IH]; intros pre; simpl.
  - now rewrite app_nil_r.
  - rewrite IH. now rewrite <- app_assoc.
Qed.

(** The loop computes the image of the grid under the loop body. *)
Lemma payoff_vals_map kind ty K B (S : list float) :
  payoff_vals kind ty K B S = List.map (payoff_at kind ty K B) S.
Proof. unfold payoff_vals. now rewrite payoff_vals_snoc. Qed.

(** Evaluate the substring and string-equality tests on literal labels. *)
Ltac eval_labels :=
  repeat match goal with
    | |- context [str_in ?a ?b] =>
        let v := eval vm_compute in (str_in a b) in
        change (str_in a b) with v
    | |- context [String.eqb ?a ?b] =>
        let v := eval vm_compute in (String.eqb a b) in
        change (String.eqb a b) with v
    end.

(** One grid point: the loop body agrees with the specification's policy. *)
Lemma payoff_at_payoffAt (k : ql.Barrier.type) (t : ql.Option.type) (K B s : float) :
  py_float (payoff_at (kind_label k) (option_label t) K B s) = payoffAt k t K B s.
Proof.
  unfold payoff_at, payoffAt.
  destruct k, t; cbn [kind_label option_label is_out knocked andb];
    eval_labels; cbn [andb intrinsic];
    repeat match goal with
      | |- context [(?a <=? ?b)%float] => destruct (a <=? b)%float
      end;
    try reflexivity; apply py_float_max0.
Qed.

(** C2.  The diagram is the pointwise image of the price grid: at each
    price an Out kind that is knocked (at or above the level for Up, at or
    below it for Down) pays 0, and every other case pays max(S-K,0) for a
    call and max(K-S,0) for a put.  For Down-Out, strike 100, barrier 90,
    call: 85 is knocked and pays 0, 95 is not knocked and pays 0, 110 pays
    10. *)
Theorem payoff_diagram_policy :
  (forall k t K B S,
      List.map py_float (payoff_vals (kind_label k) (option_label t) K B S)
      = List.map (payoffAt k t K B) S)
  /\ (knocked ql.Barrier.DownOut 90 85 = true
      /\ payoff_at "Down-Out" "Call" 100 90 85 = PyInt 0)
  /\ (knocked ql.Barrier.DownOut 90 95 = false
      /\ payoff_at "Down-Out" "Call" 100 90 95 = PyInt 0)
  /\ (knocked ql.Barrier.DownOut 90 110 = false
      /\ payoff_at "Down-Out" "Call" 100 90 110 = PyFloat 10).
Proof.
  split.
  - intros k t K B S. rewrite payoff_vals_map, List.map_map.
    apply List.map_ext. intros s. apply payoff_at_payoffAt.
  - repeat split; vm_compute; reflexivity.
Qed.

(** C3, as the script has it.  For the two In kinds the barrier plays no
    part in the diagram: at every price, knocked or not, the value drawn is
    the vanilla intrinsic value. *)
Theorem in_kinds_pay_intrinsic (k : ql.Barrier.type) (t : ql.Option.type)
    (K B s : float) :
  is_out k = false ->
  py_float (payoff_at (kind_label k) (option_label t) K B s) = intrinsic t K s.
Proof.
  intros Hk. rewrite payoff_at_payoffAt. unfold payoffAt. now rewrite Hk.
Qed.

Lemma in_kinds_pay_intrinsic_witness :
  is_out ql.Barrier.UpIn = false
  /\ py_float (payoff_at "Up-In" "Call" 100 120 130) = intrinsic ql.Option.Call 100 130.
Proof.
  split; [reflexivity|].
  exact (in_kinds_pay_intrinsic ql.Barrier.UpIn ql.Option.Call 100 120 130 eq_refl).
Defined.

(** C3 fails as stated: an Up-In call with strike 100 and barrier 120 is
    drawn at 30 for the price 130, which is at or above the barrier; a
    Down-In put with strike 100 and barrier 90 is drawn at 15 for the price
    85, which is at or below it. *)
Lemma in_kind_knocked_not_zero :
  (knocked ql.Barrier.UpIn 120 130 = true
   /\ payoff_at "Up-In" "Call" 100 120 130 = PyFloat 30
   /\ (30 =? 0)%float = false)
  /\ (knocked ql.Barrier.DownIn 90 85 = true
      /\ payoff_at "Down-In" "Put" 100 90 85 = PyFloat 15
      /\ (15 =? 0)%float = false).
Proof. repeat split; vm_compute; reflexivity. Qed.

(** * Properties of the set-up (lines 22-47) *)

(** What [ql.Date] accepts it stores as given, and it accepts the days of
    the calendar from 1901 to 2199 only. *)
Lemma Date_ok_inv (d m y : Z) (dt : ql.date) :
  ql.Date d m y = Ok dt ->
  dt = ql.mk_date d m y
  /\ (1901 <= y <= 2199)%Z /\ (1 <= m <= 12)%Z
  /\ (1 <= d <= ql.monthLength m (ql.isLeap y))%Z.
Proof.
  unfold ql.Date.
  destruct ((1900 <? y) && (y <? 2200))%Z eqn:Hy; cbn [negb]; [|discriminate].
  destruct ((0 <? m) && (m <? 13))%Z eqn:Hm; cbn [negb]; [|discriminate].
  destruct ((d <=? ql.monthLength m (ql.isLeap y)) && (0 <? d))%Z eqn:Hd;
    cbn [negb]; [|discriminate].
  intros [= <-].
  apply andb_true_iff in Hy as [Hy1 Hy2], Hm as [Hm1 Hm2], Hd as [Hd1 Hd2].
  repeat split; lia.
Qed.

Lemma Date_ok (d m y : Z) :
  (1901 <= y <= 2199)%Z -> (1 <= m <= 12)%Z ->
  (1 <= d <= ql.monthLength m (ql.isLeap y))%Z ->
  ql.Date d m y = Ok (ql.mk_date d m y).
Proof.
  intros Hy Hm Hd. unfold ql.Date.
  replace ((1900 <? y) && (y <? 2200))%Z with true
    by (symmetry; apply andb_true_iff; lia).
  replace ((0 <? m) && (m <? 13))%Z with true
    by (symmetry; apply andb_true_iff; lia).
  replace ((d <=? ql.monthLength m (ql.isLeap y)) && (0 <? d))%Z with true
    by (symmetry; apply andb_true_iff; lia).
  reflexivity.
Qed.

(** The instrument lines 46 and 47 leave behind when the maturity is a
    date of the library and the barrier type is found in [barrier_map]. *)
Lemma setup_found (today : ql.date) (inp : Inputs) (st : ql.Settings)
    (d : ql.date) (bt : ql.Barrier.type) :
  ql.Date (day (maturity inp)) (month (maturity inp)) (year (maturity inp)) = Ok d ->
  barrier_map !! barrier_type_str inp = Some bt ->
  setup today inp st =
    (ql.mk_settings today,
     Ok (ql.mk_option bt (barrier inp) 0
           (ql.mk_payoff
              (if String.eqb (option_type inp) "Call"
               then ql.Option.Call else ql.Option.Put)
              (strike inp))
           (ql.mk_exercise d)
           (Some (ql.mk_engine (market_data today inp))))).
Proof.
  intros Hd Hbt. unfold setup, bind, set_evaluationDate, lift, getitem.
  rewrite Hd, Hbt. reflexivity.
Qed.

(** A barrier type outside the dict ends the script with [KeyError]. *)
Lemma setup_missing (today : ql.date) (inp : Inputs) (st : ql.Settings)
    (d : ql.date) :
  ql.Date (day (maturity inp)) (month (maturity inp)) (year (maturity inp)) = Ok d ->
  barrier_map !! barrier_type_str inp = None ->
  setup today inp st = (ql.mk_settings today, Raise (KeyError (barrier_type_str inp))).
Proof.
  intros Hd Hbt. unfold setup, bind, set_evaluationDate, lift, getitem.
  rewrite Hd, Hbt. reflexivity.
Qed.

(** A maturity that is not a date of the library ends the script on line
    24, before the dict is looked at. *)
Lemma setup_bad_date (today : ql.date) (inp : Inputs) (st : ql.Settings) (e : exn) :
  ql.Date (day (maturity inp)) (month (maturity inp)) (year (maturity inp)) = Raise e ->
  setup today inp st = (ql.mk_settings today, Raise e).
Proof.
  intros Hd. unfold setup, bind, set_evaluationDate, lift. rewrite Hd. reflexivity.
Qed.

(** Reading a successful set-up backwards. *)
Lemma setup_inv (today : ql.date) (inp : Inputs) (st st' : ql.Settings)
    (opt : ql.barrier_option) :
  setup today inp st = (st', Ok opt) ->
  exists d bt,
    ql.Date (day (maturity inp)) (month (maturity inp)) (year (maturity inp)) = Ok d
    /\ barrier_map !! barrier_type_str inp = Some bt
    /\ setup today inp st
       = (ql.mk_settings today,
          Ok (ql.mk_option bt (barrier inp) 0
                (ql.mk_payoff
                   (if String.eqb (option_type inp) "Call"
                    then ql.Option.Call else ql.Option.Put)
                   (strike inp))
                (ql.mk_exercise d)
                (Some (ql.mk_engine (market_data today inp))))).
Proof.
  intros Hs.
  destruct (ql.Date (day (maturity inp)) (month (maturity inp)) (year (maturity inp)))
    as [d|e] eqn:Hd.
  - destruct (barrier_map !! barrier_type_str inp) as [bt|] eqn:Hbt.
    + exists d, bt. split; [reflexivity|]. split; [reflexivity|].
      apply (setup_found today inp st d bt Hd Hbt).
    + rewrite (setup_missing today inp st d Hd Hbt) in Hs. discriminate.
  - rewrite (setup_bad_date today inp st e Hd) in Hs. discriminate.
Qed.

(** Every option of the select box is a key of [barrier_map]. *)
Lemma barrier_type_options_found (s : string) :
  In s barrier_type_options -> exists bt, barrier_map !! s = Some bt.
Proof.
  cbn [In barrier_type_options].
  intros [<-|[<-|[<-|[<-|[]]]]]; eexists; vm_compute; reflexivity.
Qed.

(** The set-up succeeds for a maturity the library accepts and a barrier
    type the select box offers. *)
Lemma setup_ok (today : ql.date) (inp : Inputs) (st : ql.Settings) (d : ql.date) :
  ql.Date (day (maturity inp)) (month (maturity inp)) (year (maturity inp)) = Ok d ->
  In (barrier_type_str inp) barrier_type_options ->
  exists opt,
    setup today inp st = (ql.mk_settings today, Ok opt)
    /\ ql.rebate opt = 0%float
    /\ ql.lastDate (ql.exercise opt) = d
    /\ ql.pricingEngine opt = Some (ql.AnalyticBarrierEngine (market_data today inp)).
Proof.
  intros Hd Hin. destruct (barrier_type_options_found _ Hin) as [bt Hbt].
  eexists. split; [apply (setup_found today inp st d bt Hd Hbt)|].
  repeat split.
Qed.

(** The settings after the set-up hold [today], whatever they held before
    and however the set-up ended. *)
Lemma setup_settings (today : ql.date) (inp : Inputs) (st : ql.Settings) :
  fst (setup today inp st) = ql.mk_settings today.
Proof.
  destruct (ql.Date (day (maturity inp)) (month (maturity inp)) (year (maturity inp)))
    as [d|e] eqn:Hd.
  - destruct (barrier_map !! barrier_type_str inp) as [bt|] eqn:Hbt.
    + now rewrite (setup_found today inp st d bt Hd Hbt).
    + now rewrite (setup_missing today inp st d Hd Hbt).
  - now rewrite (setup_bad_date today inp st e Hd).
Qed.

(** * Floats that compare equal to zero *)

(** A float that compares equal to 0 is a zero: it is neither a NaN nor an
    infinity. *)
Lemma eqb_zero_is_finite (p : float) :
  (p =? 0)%float = true -> is_finite p = true.
Proof.
  unfold is_finite, is_nan, is_infinity.
  rewrite !FloatAxioms.eqb_spec, abs_spec.
  change (Prim2SF 0) with (S754_zero false).
  change (Prim2SF infinity) with (S754_infinity false).
  destruct (Prim2SF p) as [sg|sg| |sg m e]; cbn; try discriminate; try reflexivity.
  all: destruct sg; cbn; try discriminate; reflexivity.
Qed.

(** A float that is at most 0 is not above 0. *)
Lemma leb_zero_not_positive (x : float) :
  (x <=? 0)%float = true -> (0 <? x)%float = false.
Proof.
  rewrite leb_spec, ltb_spec. change (Prim2SF 0) with (S754_zero false).
  destruct (Prim2SF x) as [sg|sg| |sg m e]; try reflexivity;
    destruct sg; cbn; congruence.
Qed.

(** * Properties of the pricing block (lines 49-54) *)

Section PricingFacts.

Context {engine : ql.Engine}.

Lemma pricing_raise opt st e :
  ql.NPV st opt = Raise e -> pricing opt st = (st, Raise e).
Proof. intros H. unfold pricing, bind, call. now rewrite H. Qed.

Lemma pricing_zero opt st p :
  ql.NPV st opt = Ok p ->
  (p =? 0)%float = true ->
  pricing opt st = (st, Ok (mk_results p 0 0 0 0 0)).
Proof.
  intros H Hz. unfold pricing, bind, call, nonzero. rewrite H, Hz. reflexivity.
Qed.

Lemma pricing_nonzero opt st p d g v t r :
  ql.NPV st opt = Ok p ->
  (p =? 0)%float = false ->
  ql.delta st opt = Ok d ->
  ql.gamma st opt = Ok g ->
  ql.vega st opt = Ok v ->
  ql.theta st opt = Ok t ->
  ql.rho st opt = Ok r ->
  pricing opt st = (st, Ok (mk_results p d g v t r)).
Proof.
  intros H Hz Hd Hg Hv Ht Hr. unfold pricing, bind, call, nonzero.
  rewrite H, Hz. cbn [negb]. rewrite Hd, Hg, Hv, Ht, Hr. reflexivity.
Qed.

(** Reading a displayed result backwards: where each number came from. *)
Lemma pricing_inv opt st st' res :
  pricing opt st = (st', Ok res) ->
  st' = st
  /\ ql.NPV st opt = Ok (price res)
  /\ (((price res =? 0)%float = true
       /\ delta res = 0%float /\ gamma res = 0%float /\ vega res = 0%float
       /\ theta res = 0%float /\ rho res = 0%float)
      \/ ((price res =? 0)%float = false
          /\ ql.delta st opt = Ok (delta res)
          /\ ql.gamma st opt = Ok (gamma res)
          /\ ql.vega st opt = Ok (vega res)
          /\ ql.theta st opt = Ok (theta res)
          /\ ql.rho st opt = Ok (rho res))).
Proof.
  unfold pricing, bind, call, nonzero, ret.
  destruct (ql.NPV st opt) as [p|e] eqn:Hp; [|discriminate].
  destruct (p =? 0)%float eqn:Hz; cbn [negb].
  - intros [= <- <-]. cbn. rewrite Hz. split; [reflexivity|]. split; [reflexivity|].
    left. repeat split.
  - destruct (ql.delta st opt) as [d|?] eqn:Hd; [|discriminate].
    destruct (ql.gamma st opt) as [g|?] eqn:Hg; [|discriminate].
    destruct (ql.vega st opt) as [v|?] eqn:Hv; [|discriminate].
    destruct (ql.theta st opt) as [t|?] eqn:Ht; [|discriminate].
    destruct (ql.rho st opt) as [r|?] eqn:Hr; [|discriminate].
    intros [= <- <-]. cbn. rewrite Hz. split; [reflexivity|]. split; [reflexivity|].
    right. repeat split.
Qed.

(** The first Greek that raises ends the block with its exception. *)
Lemma pricing_delta_raises opt st p e :
  ql.NPV st opt = Ok p ->
  (p =? 0)%float = false ->
  ql.delta st opt = Raise e ->
  pricing opt st = (st, Raise e).
Proof.
  intros H Hz Hd. unfold pricing, bind, call, nonzero.
  rewrite H, Hz. cbn [negb]. now rewrite Hd.
Qed.

(** The script from the set-up on. *)
Lemma run_pricing today inp st opt :
  setup today inp st = (ql.mk_settings today, Ok opt) ->
  run today inp st = pricing opt (ql.mk_settings today).
Proof. intros H. unfold run, bind. now rewrite H. Qed.

(** C10.  Whatever the instrument and the settings: when the price the
    engine returns compares equal to 0, the five Greeks displayed are 0.0
    and the engine is not asked for them; when it does not, each Greek
    displayed is the engine's own answer, and an engine that raises on
    the first of them ends the block with that exception. *)
Theorem greeks_follow_price opt st p :
  ql.NPV st opt = Ok p ->
  ((p =? 0)%float = true ->
     pricing opt st = (st, Ok (mk_results p 0 0 0 0 0)))
  /\ ((p =? 0)%float = false ->
      (forall d g v t r,
          ql.delta st opt = Ok d -> ql.gamma st opt = Ok g ->
          ql.vega st opt = Ok v -> ql.theta st opt = Ok t ->
          ql.rho st opt = Ok r ->
          pricing opt st = (st, Ok (mk_results p d g v t r)))
      /\ (forall e, ql.delta st opt = Raise e -> pricing opt st = (st, Raise e))).
Proof.
  intros H. split.
  - intros Hz. exact (pricing_zero opt st p H Hz).
  - intros Hz. split.
    + intros d g v t r. exact (pricing_nonzero opt st p d g v t r H Hz).
    + intros e. exact (pricing_delta_raises opt st p e H Hz).
Qed.

(** C4, as the program has it.  Take an engine that values an expired
    instrument at 0 and provides no delta for a price that does not
    compare equal to 0, as the library's analytic barrier engine does.
    With a maturity on or before the day of the run the script displays 0
    for the price, not the intrinsic value at spot, and 0.0 for delta,
    gamma, vega, theta and rho.  And whenever the script displays numbers
    at all, the price is the engine's answer, it compares equal to 0, and
    the five Greeks are 0.0: no NaN and no infinity is displayed. *)
Theorem expired_displays_zeros today inp st :
  expired_is_worthless engine ->
  no_delta_for_a_price engine ->
  (forall d,
      In (barrier_type_str inp) barrier_type_options ->
      ql.Date (day (maturity inp)) (month (maturity inp)) (year (maturity inp)) = Ok d ->
      (ql.serialNumber d <= ql.serialNumber today)%Z ->
      run today inp st = (ql.mk_settings today, Ok (mk_results 0 0 0 0 0 0)))
  /\ (forall st' res,
         run today inp st = (st', Ok res) ->
         (exists opt,
             setup today inp st = (st', Ok opt)
             /\ ql.NPV st' opt = Ok (price res))
         /\ (price res =? 0)%float = true
         /\ is_finite (price res) = true
         /\ delta res = 0%float /\ gamma res = 0%float /\ vega res = 0%float
         /\ theta res = 0%float /\ rho res = 0%float).
Proof.
  intros Hexp Hnodelta. split.
  - intros d Hin Hd Hle.
    destruct (setup_ok today inp st d Hd Hin) as (opt & Hs & _ & Hlast & _).
    rewrite (run_pricing today inp st opt Hs).
    apply pricing_zero; [|reflexivity].
    apply Hexp. unfold ql.expired. rewrite Hlast. cbn [ql.evaluationDate].
    now apply Z.leb_le.
  - intros st' res Hrun. unfold run, bind in Hrun.
    destruct (setup today inp st) as [st1 [opt|e]] eqn:Hs; [|discriminate].
    apply pricing_inv in Hrun as (-> & Hnpv & Hcases).
    split; [exists opt; split; [reflexivity|exact Hnpv]|].
    destruct Hcases as [(Hz & Hg)|(Hz & Hd & _)].
    + split; [exact Hz|]. split; [exact (eqb_zero_is_finite _ Hz)|exact Hg].
    + destruct (Hnodelta st1 opt (price res) Hnpv Hz) as [e He].
      rewrite He in Hd. discriminate.
Qed.

End PricingFacts.

Lemma greeks_follow_price_witness :
  @pricing (constant_engine 0 1 2 3 4 5) sample_option earlier_settings
  = (earlier_settings, Ok (mk_results 0 0 0 0 0 0))
  /\ @pricing (constant_engine 7 1 2 3 4 5) sample_option earlier_settings
     = (earlier_settings, Ok (mk_results 7 1 2 3 4 5)).
Proof.
  split.
  - exact (proj1 (@greeks_follow_price (constant_engine 0 1 2 3 4 5)
                    sample_option earlier_settings 0 eq_refl) eq_refl).
  - exact (proj1 (proj2 (@greeks_follow_price (constant_engine 7 1 2 3 4 5)
                           sample_option earlier_settings 7 eq_refl) eq_refl)
             1 2 3 4 5 eq_refl eq_refl eq_refl eq_refl eq_refl)%float.
Defined.

(** The library's engine has the two properties, whatever its formula. *)
Lemma library_engine_expired value : expired_is_worthless (library_engine value).
Proof.
  intros st o Hexp. cbn [ql.NPV library_engine]. unfold library_NPV.
  now rewrite Hexp.
Qed.

Lemma library_engine_no_delta value : no_delta_for_a_price (library_engine value).
Proof.
  intros st o p Hp Hz. cbn [ql.NPV ql.delta library_engine] in *.
  unfold library_greek. rewrite Hp.
  destruct (ql.expired st o) eqn:Hexp.
  - unfold library_NPV in Hp. rewrite Hexp in Hp. injection Hp as <-. discriminate.
  - eexists. reflexivity.
Qed.

Lemma expired_displays_zeros_witness :
  expired_is_worthless (library_engine sample_value)
  /\ no_delta_for_a_price (library_engine sample_value)
  /\ ql.Date 4 11 2026 = Ok sample_today
  /\ @run (library_engine sample_value) sample_today in_the_money_inputs earlier_settings
     = (ql.mk_settings sample_today, Ok (mk_results 0 0 0 0 0 0)).
Proof.
  split; [apply library_engine_expired|].
  split; [apply library_engine_no_delta|].
  split; [reflexivity|].
  exact (proj1 (@expired_displays_zeros (library_engine sample_value) sample_today
                  in_the_money_inputs earlier_settings
                  (library_engine_expired sample_value)
                  (library_engine_no_delta sample_value))
           sample_today (or_introl eq_refl) eq_refl (Z.le_refl _)).
Defined.

(** C4 fails as stated.  The maturity is the day of the run, so the time to
    maturity is 0; the spot 110 is below the Up-Out barrier 120, not
    knocked, and the intrinsic value of the call struck at 100 is 10; the
    instrument is expired, and the script displays 0 for the price. *)
Lemma expired_in_the_money_shows_zero :
  ql.Date 4 11 2026 = Ok sample_today
  /\ ql.yearFraction ql.Actual365Fixed sample_today sample_today = Qmake 0 365
  /\ knocked ql.Barrier.UpOut 120 110 = false
  /\ payoffAt ql.Barrier.UpOut ql.Option.Call 100 120 110 = 10%float
  /\ @run (library_engine sample_value) sample_today in_the_money_inputs earlier_settings
     = (ql.mk_settings sample_today, Ok (mk_results 0 0 0 0 0 0))
  /\ (0 =? 10)%float = false.
Proof. repeat split; vm_compute; reflexivity. Qed.

(** * The script has no validation of its own *)

(** An Out kind that is knocked is drawn at the int [0], for a call and a
    put alike. *)
Lemma payoff_at_knocked_out (k : ql.Barrier.type) (ty : string) (K B s : float) :
  is_out k = true ->
  knocked k B s = true ->
  payoff_at (kind_label k) ty K B s = PyInt 0.
Proof.
  unfold payoff_at.
  destruct k; cbn [is_out knocked kind_label]; try discriminate;
    intros _ Hk; eval_labels; cbn [andb]; rewrite Hk;
    [destruct (B <=? s)%float|]; reflexivity.
Qed.

Section ScriptFacts.

Context {engine : ql.Engine}.

(** C5, as the script has it.  With a barrier type from the select box
    and a maturity the library accepts, the set-up succeeds for every spot
    and volatility, whatever their sign: the process handed to the engine
    quotes the spot and the volatility as they were entered, and the script
    goes on to ask the engine for the price.  With an engine that rejects
    a spot that is not positive, as the library's does for an instrument
    not yet expired, a spot at or below 0 ends the script there, with the
    engine's exception and nothing displayed. *)
Theorem market_data_not_validated today inp st d :
  In (barrier_type_str inp) barrier_type_options ->
  ql.Date (day (maturity inp)) (month (maturity inp)) (year (maturity inp)) = Ok d ->
  exists opt,
    setup today inp st = (ql.mk_settings today, Ok opt)
    /\ ql.pricingEngine opt = Some (ql.AnalyticBarrierEngine (market_data today inp))
    /\ ql.value (ql.currentLink (ql.x0 (market_data today inp))) = spot inp
    /\ ql.bv_volatility (ql.currentLink (ql.blackVolTS (market_data today inp))) = vol inp
    /\ run today inp st = pricing opt (ql.mk_settings today)
    /\ (rejects_nonpositive_spot engine ->
        (spot inp <=? 0)%float = true ->
        (ql.serialNumber today < ql.serialNumber d)%Z ->
        exists msg, run today inp st = (ql.mk_settings today, Raise (RuntimeError msg))).
Proof.
  intros Hin Hd. destruct (setup_ok today inp st d Hd Hin) as (opt & Hs & _ & Hlast & He).
  exists opt. repeat split; try assumption; [now apply run_pricing|].
  intros Hrej Hspot Hlive.
  destruct (Hrej (ql.mk_settings today) opt _ He) as [msg Hmsg].
  - unfold ql.expired. rewrite Hlast. cbn [ql.evaluationDate]. apply Z.leb_gt. exact Hlive.
  - apply leb_zero_not_positive. exact Hspot.
  - exists msg. rewrite (run_pricing today inp st opt Hs). now apply pricing_raise.
Qed.

(** C6, as the script has it.  The script compares the maturity with
    nothing.  With a barrier type from the select box, every maturity the
    library accepts as a date, before, on or after the day of the run,
    becomes the exercise date of the instrument, and the script goes on to
    ask the engine for the price; a maturity the library does not accept
    ends the script on line 24 with the library's exception. *)
Theorem exercise_date_not_validated today inp st :
  In (barrier_type_str inp) barrier_type_options ->
  (forall d,
      ql.Date (day (maturity inp)) (month (maturity inp)) (year (maturity inp)) = Ok d ->
      exists opt,
        setup today inp st = (ql.mk_settings today, Ok opt)
        /\ d = ql.mk_date (day (maturity inp)) (month (maturity inp)) (year (maturity inp))
        /\ ql.lastDate (ql.exercise opt) = d
        /\ ql.pricingEngine opt = Some (ql.AnalyticBarrierEngine (market_data today inp))
        /\ run today inp st = pricing opt (ql.mk_settings today))
  /\ (forall e,
         ql.Date (day (maturity inp)) (month (maturity inp)) (year (maturity inp)) = Raise e ->
         run today inp st = (ql.mk_settings today, Raise e)).
Proof.
  intros Hin. split.
  - intros d Hd.
    destruct (setup_ok today inp st d Hd Hin) as (opt & Hs & _ & Hlast & He).
    exists opt. split; [exact Hs|]. split; [apply (Date_ok_inv _ _ _ _ Hd)|].
    split; [exact Hlast|]. split; [exact He|]. now apply run_pricing.
  - intros e Hd. unfold run, bind. now rewrite (setup_bad_date today inp st e Hd).
Qed.

(** C9.  Every instrument the set-up builds has rebate 0.0, and it is this
    instrument the engine is asked about; in the diagram a knocked Out kind
    is drawn at the int 0, with no rebate term. *)
Theorem rebate_is_zero today inp st st' opt :
  setup today inp st = (st', Ok opt) ->
  ql.rebate opt = 0%float
  /\ run today inp st = pricing opt st'
  /\ (forall k s,
         barrier_type_str inp = kind_label k ->
         is_out k = true ->
         knocked k (barrier inp) s = true ->
         payoff_at (barrier_type_str inp) (option_type inp) (strike inp)
           (barrier inp) s = PyInt 0).
Proof.
  intros Hs. split; [|split].
  - destruct (setup_inv today inp st st' opt Hs) as (d & bt & _ & _ & Hfound).
    rewrite Hfound in Hs. injection Hs as _ <-. reflexivity.
  - unfold run, bind. now rewrite Hs.
  - intros k s -> Hout Hk. now apply payoff_at_knocked_out.
Qed.

(** The set-up overwrites the settings before anything reads them. *)
Lemma setup_forgets today inp st1 st2 :
  setup today inp st1 = setup today inp st2.
Proof.
  destruct (ql.Date (day (maturity inp)) (month (maturity inp)) (year (maturity inp)))
    as [d|e] eqn:Hd.
  - destruct (barrier_map !! barrier_type_str inp) as [bt|] eqn:Hbt.
    + now rewrite !(setup_found today inp _ d bt Hd Hbt).
    + now rewrite !(setup_missing today inp _ d Hd Hbt).
  - now rewrite !(setup_bad_date today inp _ e Hd).
Qed.

(** C7.  With the engine's methods functions of the settings and the
    instrument, the outcome of the script (the six numbers or the
    exception, and the settings it leaves) depends on the day of the run
    and the widget values only: not on the settings an earlier run left,
    and so not on how many times it has run. *)
Theorem run_deterministic today inp st1 st2 :
  run today inp st1 = run today inp st2
  /\ run today inp (fst (run today inp st1)) = run today inp st1.
Proof.
  assert (H : forall a b, run today inp a = run today inp b).
  { intros a b. unfold run, bind. now rewrite (setup_forgets today inp a b). }
  split; apply H.
Qed.

End ScriptFacts.

(** C8.  The process of lines 27-31 holds the spot as entered, a flat
    forward curve at the risk-free rate and one at the dividend yield, both
    continuously compounded, and a constant Black volatility; all three are
    anchored at the day of the run and count time Actual/365 (Fixed), the
    calendar days between two dates over 365; and the evaluation date of
    the settings is the day of the run. *)
Theorem market_model_flat_act365 (today : ql.date) (inp : Inputs) (st : ql.Settings) :
  let p := market_data today inp in
  ql.value (ql.currentLink (ql.x0 p)) = spot inp
  /\ ql.currentLink (ql.riskFreeTS p)
     = ql.mk_flat_forward today (risk_free inp) ql.Actual365Fixed ql.Continuous ql.Annual
  /\ ql.currentLink (ql.dividendTS p)
     = ql.mk_flat_forward today (dividend inp) ql.Actual365Fixed ql.Continuous ql.Annual
  /\ ql.currentLink (ql.blackVolTS p)
     = ql.mk_black_constant_vol today ql.NullCalendar (vol inp) ql.Actual365Fixed
  /\ (forall d1 d2,
         ql.yearFraction ql.Actual365Fixed d1 d2
         = Qmake (ql.serialNumber d2 - ql.serialNumber d1) 365)
  /\ ql.evaluationDate (fst (setup today inp st)) = today.
Proof.
  cbv zeta. repeat split. now rewrite setup_settings.
Qed.

Lemma library_engine_rejects value : rejects_nonpositive_spot (library_engine value).
Proof.
  intros st o e He Hlive Hspot. cbn [ql.NPV library_engine]. unfold library_NPV.
  rewrite Hlive, He, Hspot. cbn [negb].
  destruct (negb (0 <? ql.po_strike (ql.payoff o))%float); eexists; reflexivity.
Qed.

Lemma market_data_not_validated_witness :
  In (barrier_type_str negative_inputs) barrier_type_options
  /\ ql.Date 4 11 2027 = Ok (ql.mk_date 4 11 2027)
  /\ exists opt,
      setup sample_today negative_inputs earlier_settings
      = (ql.mk_settings sample_today, Ok opt)
      /\ ql.pricingEngine opt
         = Some (ql.AnalyticBarrierEngine (market_data sample_today negative_inputs))
      /\ ql.value (ql.currentLink (ql.x0 (market_data sample_today negative_inputs)))
         = spot negative_inputs
      /\ ql.bv_volatility
           (ql.currentLink (ql.blackVolTS (market_data sample_today negative_inputs)))
         = vol negative_inputs
      /\ @run (library_engine sample_value) sample_today negative_inputs earlier_settings
         = @pricing (library_engine sample_value) opt (ql.mk_settings sample_today)
      /\ (rejects_nonpositive_spot (library_engine sample_value) ->
          (spot negative_inputs <=? 0)%float = true ->
          (ql.serialNumber sample_today < ql.serialNumber (ql.mk_date 4 11 2027))%Z ->
          exists msg,
            @run (library_engine sample_value) sample_today negative_inputs
              earlier_settings
            = (ql.mk_settings sample_today, Raise (RuntimeError msg))).
Proof.
  split; [left; reflexivity|]. split; [reflexivity|].
  exact (@market_data_not_validated (library_engine sample_value) sample_today
           negative_inputs earlier_settings (ql.mk_date 4 11 2027)
           (or_introl eq_refl) eq_refl).
Defined.

(** C5 fails as stated: with spot -1 and volatility -0.2 the set-up ends
    with an instrument carrying its engine, built on those data; the
    rejection comes after, from the price calculation of the engine, and it
    is a [RuntimeError]. *)
Lemma negative_spot_reaches_engine :
  (spot negative_inputs <=? 0)%float = true
  /\ (vol negative_inputs <? 0)%float = true
  /\ (exists opt,
         setup sample_today negative_inputs earlier_settings
         = (ql.mk_settings sample_today, Ok opt)
         /\ ql.pricingEngine opt
            = Some (ql.AnalyticBarrierEngine (market_data sample_today negative_inputs)))
  /\ @run (library_engine sample_value) sample_today negative_inputs earlier_settings
     = (ql.mk_settings sample_today,
        Raise (RuntimeError "negative or null underlying given")).
Proof.
  split; [reflexivity|]. split; [reflexivity|]. split.
  - eexists. split; [vm_compute; reflexivity|reflexivity].
  - vm_compute. reflexivity.
Qed.

Lemma exercise_date_not_validated_witness :
  In (barrier_type_str (default_inputs day_before)) barrier_type_options
  /\ ql.Date 3 11 2026 = Ok (ql.mk_date 3 11 2026)
  /\ (exists opt,
         setup sample_today (default_inputs day_before) earlier_settings
         = (ql.mk_settings sample_today, Ok opt)
         /\ ql.mk_date 3 11 2026 = ql.mk_date 3 11 2026
         /\ ql.lastDate (ql.exercise opt) = ql.mk_date 3 11 2026
         /\ ql.pricingEngine opt
            = Some (ql.AnalyticBarrierEngine
                      (market_data sample_today (default_inputs day_before)))
         /\ @run (library_engine sample_value) sample_today (default_inputs day_before)
              earlier_settings
            = @pricing (library_engine sample_value) opt (ql.mk_settings sample_today))
  /\ (exists e,
         ql.Date 1 1 2200 = Raise e
         /\ @run (library_engine sample_value) sample_today (default_inputs far_future)
              earlier_settings
            = (ql.mk_settings sample_today, Raise e)).
Proof.
  split; [right; right; left; reflexivity|]. split; [reflexivity|]. split.
  - exact (proj1 (@exercise_date_not_validated (library_engine sample_value)
                    sample_today (default_inputs day_before) earlier_settings
                    (or_intror (or_intror (or_introl eq_refl))))
             (ql.mk_date 3 11 2026) eq_refl).
  - eexists. split; [reflexivity|].
    exact (proj2 (@exercise_date_not_validated (library_engine sample_value)
                    sample_today (default_inputs far_future) earlier_settings
                    (or_intror (or_intror (or_introl eq_refl))))
             _ eq_refl).
Defined.

(** C6 fails as stated: a maturity one day before the day of the run, a
    time to maturity of -1/365, ends the set-up with an instrument carrying
    its engine and that exercise date; nothing fails, the instrument is
    expired and the script displays six zeros. *)
Lemma past_maturity_is_accepted :
  ql.Date 3 11 2026 = Ok (ql.mk_date 3 11 2026)
  /\ ql.daysBetween sample_today (ql.mk_date 3 11 2026) = (-1)%Z
  /\ ql.yearFraction ql.Actual365Fixed sample_today (ql.mk_date 3 11 2026)
     = Qmake (-1) 365
  /\ (exists opt,
         setup sample_today (default_inputs day_before) earlier_settings
         = (ql.mk_settings sample_today, Ok opt)
         /\ ql.lastDate (ql.exercise opt) = ql.mk_date 3 11 2026
         /\ ql.pricingEngine opt
            = Some (ql.AnalyticBarrierEngine
                      (market_data sample_today (default_inputs day_before))))
  /\ @run (library_engine sample_value) sample_today (default_inputs day_before)
       earlier_settings
     = (ql.mk_settings sample_today, Ok (mk_results 0 0 0 0 0 0)).
Proof.
  split; [reflexivity|]. split; [reflexivity|]. split; [reflexivity|]. split.
  - eexists. split; [vm_compute; reflexivity|]. split; reflexivity.
  - vm_compute. reflexivity.
Qed.

Lemma rebate_is_zero_witness :
  exists opt,
    setup sample_today (default_inputs year_later) earlier_settings
    = (ql.mk_settings sample_today, Ok opt)
    /\ (ql.rebate opt = 0%float
        /\ @run (constant_engine 5 1 2 3 4 6) sample_today (default_inputs year_later)
             earlier_settings
           = @pricing (constant_engine 5 1 2 3 4 6) opt (ql.mk_settings sample_today)
        /\ (forall k s,
               barrier_type_str (default_inputs year_later) = kind_label k ->
               is_out k = true ->
               knocked k (barrier (default_inputs year_later)) s = true ->
               payoff_at (barrier_type_str (default_inputs year_later))
                 (option_type (default_inputs year_later))
                 (strike (default_inputs year_later))
                 (barrier (default_inputs year_later)) s = PyInt 0)).
Proof.
  eexists. split; [vm_compute; reflexivity|].
  exact (@rebate_is_zero (constant_engine 5 1 2 3 4 6) sample_today
           (default_inputs year_later) earlier_settings _ _ eq_refl).
Defined.

(** * Further properties *)

(** The serial numbers count calendar days: leap days are days, and one
    year on, 365 days later, the year fraction is 365/365. *)
Example serialNumber_values :
  ql.serialNumber (ql.mk_date 1 1 1901) = 367%Z
  /\ ql.serialNumber (ql.mk_date 29 2 2024) = 45351%Z
  /\ ql.serialNumber (ql.mk_date 1 3 2024) = 45352%Z
  /\ ql.serialNumber sample_today = 46330%Z
  /\ ql.yearFraction ql.Actual365Fixed sample_today (ql.mk_date 4 11 2027) = Qmake 365 365.
Proof. repeat split. Qed.

(** X1.  The diagram has one value per grid point, in grid order. *)
Theorem payoff_vals_pointwise kind ty K B (S : list float) :
  length (payoff_vals kind ty K B S) = length S
  /\ (forall i s, nth_error S i = Some s ->
        nth_error (payoff_vals kind ty K B S) i = Some (payoff_at kind ty K B s)).
Proof.
  rewrite payoff_vals_map. split.
  - apply List.length_map.
  - intros i s Hs. now apply List.map_nth_error.
Qed.

(** X2.  No value of the diagram compares below zero, whatever the labels and
    the numbers entered. *)
Theorem payoff_at_not_negative kind ty (K B s : float) :
  (py_float (payoff_at kind ty K B s) <? 0)%float = false.
Proof.
  assert (Hmax : forall a, (py_float (py_max0 a) <? 0)%float = false).
  { intros a. unfold py_max0. destruct (a <? 0)%float eqn:Ha; [reflexivity|exact Ha]. }
  unfold payoff_at.
  destruct (str_in "Up-Out" kind && (B <=? s)%float);
    destruct (str_in "Down-Out" kind && (s <=? B)%float);
    try reflexivity;
    destruct (String.eqb ty "Call"); apply Hmax.
Qed.

(** X3.  The order of the two failures of the set-up.  A maturity the
    library does not accept as a date ends the script on line 24 with the
    library's exception, whatever the barrier type; with a maturity it
    accepts, a barrier type that is not a key of the dict ends the script
    with a [KeyError].  Either way the evaluation date was set and the
    engine is asked nothing. *)
Theorem unknown_barrier_type_raises `{ql.Engine} today inp st :
  (forall e,
      ql.Date (day (maturity inp)) (month (maturity inp)) (year (maturity inp)) = Raise e ->
      run today inp st = (ql.mk_settings today, Raise e))
  /\ (forall d,
         ql.Date (day (maturity inp)) (month (maturity inp)) (year (maturity inp)) = Ok d ->
         barrier_map !! barrier_type_str inp = None ->
         run today inp st
         = (ql.mk_settings today, Raise (KeyError (barrier_type_str inp)))).
Proof.
  split.
  - intros e Hd. unfold run, bind. now rewrite (setup_bad_date today inp st e Hd).
  - intros d Hd Hbt. unfold run, bind.
    now rewrite (setup_missing today inp st d Hd Hbt).
Qed.

Lemma unknown_barrier_type_raises_witness :
  (exists e,
      ql.Date 1 1 2200 = Raise e
      /\ @run nan_engine sample_today
           (mk_inputs 100 100 120 0.01 0.2 0 "Call" "Up" far_future) earlier_settings
         = (ql.mk_settings sample_today, Raise e))
  /\ @run nan_engine sample_today
       (mk_inputs 100 100 120 0.01 0.2 0 "Call" "Up" year_later) earlier_settings
     = (ql.mk_settings sample_today, Raise (KeyError "Up")).
Proof.
  split.
  - eexists. split; [reflexivity|].
    exact (proj1 (@unknown_barrier_type_raises nan_engine sample_today
                    (mk_inputs 100 100 120 0.01 0.2 0 "Call" "Up" far_future)
                    earlier_settings) _ eq_refl).
  - exact (proj2 (@unknown_barrier_type_raises nan_engine sample_today
                    (mk_inputs 100 100 120 0.01 0.2 0 "Call" "Up" year_later)
                    earlier_settings) (ql.mk_date 4 11 2027) eq_refl eq_refl).
Defined.

(** * Comparisons of floats *)

Lemma SFcompare_refl (x : spec_float) :
  x <> S754_nan -> SFcompare x x = Some Eq.
Proof.
  destruct x as [sg|sg| |sg m e]; cbn; intros Hx; try congruence.
  - now destruct sg.
  - destruct sg; rewrite Z.compare_refl, Pos.compare_cont_refl; reflexivity.
Qed.

Lemma is_nan_Prim2SF (p : float) : is_nan p = true -> Prim2SF p = S754_nan.
Proof.
  unfold is_nan. rewrite FloatAxioms.eqb_spec. unfold SFeqb.
  destruct (Prim2SF p) as [sg|sg| |sg m e] eqn:Hp; try reflexivity;
    rewrite SFcompare_refl by discriminate; discriminate.
Qed.

Lemma not_nan_Prim2SF (p : float) : is_nan p = false -> Prim2SF p <> S754_nan.
Proof.
  unfold is_nan. rewrite FloatAxioms.eqb_spec. intros H Hp.
  rewrite Hp in H. discriminate.
Qed.

(** A float that is not a NaN is at most itself. *)
Lemma leb_refl (p : float) : is_nan p = false -> (p <=? p)%float = true.
Proof.
  intros H. rewrite leb_spec. unfold SFleb.
  now rewrite SFcompare_refl by now apply not_nan_Prim2SF.
Qed.

(** Nothing is at most a NaN, and a NaN is at most nothing. *)
Lemma leb_nan (p q : float) :
  is_nan p = true -> (p <=? q)%float = false /\ (q <=? p)%float = false.
Proof.
  intros H. rewrite !leb_spec, (is_nan_Prim2SF p H). unfold SFleb.
  split; [reflexivity|]. now destruct (Prim2SF q).
Qed.

(** A difference with a NaN operand is a NaN; [max] lets it through. *)
Lemma py_max0_nan (a : float) :
  Prim2SF a = S754_nan -> py_max0 a = PyFloat a /\ is_nan a = true.
Proof.
  intros Ha. unfold py_max0, is_nan.
  rewrite ltb_spec, FloatAxioms.eqb_spec, Ha. split; reflexivity.
Qed.

(** * Strings *)
Lemma append_cons (c : Ascii.ascii) (a post : string) :
  String.append (String c a) post = String c (String.append a post).
Proof. reflexivity. Qed.

Lemma prefix_append (a b : string) :
  String.prefix a b = true <-> exists post, b = String.append a post.
Proof.
  revert b. induction a as [|c a IH]; intros b.
  - split; [intros _; now exists b|]. intros _. now destruct b.
  - destruct b as [|d b]; [split; [discriminate|intros [post [=]]]|].
    cbn [String.prefix]. setoid_rewrite append_cons.
    destruct (Ascii.ascii_dec c d) as [->|Hcd].
    + rewrite IH. split; intros [post Hp]; exists post; congruence.
    + split; [discriminate|intros [post [= Hc _]]; congruence].
Qed.

(** X4.  The [in] test of the knock rule is containment as a contiguous
    substring: it holds exactly when the barrier-type string is some
    prefix, then the label, then some suffix. *)
Theorem str_in_substring (sub s : string) :
  str_in sub s = true
  <-> exists pre post, s = String.append pre (String.append sub post).
Proof.
  induction s as [|c s IH]; cbn [str_in].
  - rewrite orb_false_r, prefix_append. split.
    + intros [post Hp]. now exists EmptyString, post.
    + intros [pre [post Hp]]. destruct pre as [|d pre]; [now exists post|discriminate].
  - rewrite orb_true_iff, prefix_append, IH. split.
    + intros [[post Hp]|[pre [post Hp]]].
      * now exists EmptyString, post.
      * exists (String c pre), post. rewrite append_cons. now rewrite Hp.
    + intros [pre [post Hp]]. destruct pre as [|d pre].
      * left. now exists post.
      * right. rewrite append_cons in Hp. injection Hp as _ Hp. now exists pre, post.
Qed.

(** * Edge cases of the payoff diagram *)

(** X5.  The barrier level itself counts as knocked for both Out kinds: at
    a price equal to a barrier that is not a NaN, Up-Out and Down-Out are
    both drawn at 0, for a call and a put alike. *)
Theorem barrier_level_is_knocked (ty : string) (K B : float) :
  is_nan B = false ->
  payoff_at "Up-Out" ty K B B = PyInt 0
  /\ payoff_at "Down-Out" ty K B B = PyInt 0.
Proof.
  intros HB. unfold payoff_at. eval_labels. cbn [andb].
  rewrite (leb_refl B HB). split; reflexivity.
Qed.

Lemma barrier_level_is_knocked_witness :
  payoff_at "Up-Out" "Call" 100 120 120 = PyInt 0
  /\ payoff_at "Down-Out" "Call" 100 120 120 = PyInt 0.
Proof. exact (barrier_level_is_knocked "Call" 100 120 eq_refl). Defined.

(** X6.  A grid price that is a NaN is never knocked and is drawn as a
    NaN, whatever the barrier-type and option-type strings, the strike
    and the barrier. *)
Theorem nan_price_draws_nan (kind ty : string) (K B s : float) :
  is_nan s = true ->
  is_nan (py_float (payoff_at kind ty K B s)) = true.
Proof.
  intros Hs. unfold payoff_at.
  destruct (leb_nan s B Hs) as [H1 H2]. rewrite H1, H2, !andb_false_r.
  assert (Hsk : Prim2SF (s - K) = S754_nan).
  { rewrite sub_spec, (is_nan_Prim2SF s Hs). reflexivity. }
  assert (Hks : Prim2SF (K - s) = S754_nan).
  { rewrite sub_spec, (is_nan_Prim2SF s Hs). now destruct (Prim2SF K). }
  destruct (String.eqb ty "Call").
  - destruct (py_max0_nan _ Hsk) as [-> Hn]. exact Hn.
  - destruct (py_max0_nan _ Hks) as [-> Hn]. exact Hn.
Qed.

Lemma nan_price_draws_nan_witness :
  is_nan (py_float (payoff_at "Down-Out" "Call" 100 90 nan)) = true.
Proof. exact (nan_price_draws_nan "Down-Out" "Call" 100 90 nan eq_refl). Defined.

(** * The test [price != 0] *)

(** X7.  The test of lines 50-54 fails for exactly two prices, +0.0 and
    -0.0; a NaN price passes it. *)
Theorem nonzero_false_iff_zero (p : float) :
  (nonzero p = false <-> p = 0%float \/ p = (-0)%float)
  /\ (is_nan p = true -> nonzero p = true).
Proof.
  unfold nonzero. split; [split|].
  - intros H. apply negb_false_iff in H.
    rewrite FloatAxioms.eqb_spec in H.
    change (Prim2SF 0) with (S754_zero false) in H.
    rewrite <- (SF2Prim_Prim2SF p).
    destruct (Prim2SF p) as [sg|sg| |sg m e]; try discriminate.
    + destruct sg; [right|left]; reflexivity.
    + destruct sg; discriminate.
    + destruct sg; discriminate.
  - intros [->| ->]; reflexivity.
  - intros H. rewrite FloatAxioms.eqb_spec, (is_nan_Prim2SF p H). reflexivity.
Qed.

(** * The dict and the select boxes *)

Lemma barrier_map_label (k : ql.Barrier.type) :
  barrier_map !! kind_label k = Some k.
Proof. destruct k; vm_compute; reflexivity. Qed.

Lemma barrier_map_inv (s : string) (k : ql.Barrier.type) :
  barrier_map !! s = Some k -> s = kind_label k.
Proof.
  unfold barrier_map. rewrite !list_to_map_cons, list_to_map_nil. cbn [fst snd].
  intros H.
  repeat (apply lookup_insert_Some in H as [[<- <-]|[_ H]]; [reflexivity|]).
  rewrite lookup_empty in H. discriminate.
Qed.

(** X8.  The dict of lines 34-39 pairs each label with the barrier type
    of the same name and holds nothing else: a string is a key exactly
    when it is one of the four labels, the four options of the select box
    of line 17. *)
Theorem barrier_map_round_trip (s : string) (k : ql.Barrier.type) :
  (barrier_map !! s = Some k <-> s = kind_label k)
  /\ (is_Some (barrier_map !! s) <-> In s barrier_type_options).
Proof.
  split; [split|split].
  - apply barrier_map_inv.
  - intros ->. apply barrier_map_label.
  - intros [k' Hk']. rewrite (barrier_map_inv s k' Hk').
    destruct k'; cbn; auto.
  - intros Hin. destruct (barrier_type_options_found s Hin) as [bt Hbt].
    now exists bt.
Qed.

(** The diagram reads the option type as the set-up does: anything but
    "Call" is a put. *)
Lemma payoff_at_option_type (kind ty : string) (K B s : float) :
  payoff_at kind ty K B s
  = payoff_at kind
      (option_label (if String.eqb ty "Call" then ql.Option.Call else ql.Option.Put))
      K B s.
Proof.
  unfold payoff_at. destruct (String.eqb ty "Call"); reflexivity.
Qed.

(** X9.  From the widgets to the instrument: with a maturity the library
    accepts as a date, choosing the barrier type [k] and the option type
    [t] in the select boxes gives an instrument of barrier type [k] and
    option type [t], with the strike and the barrier as entered, that date
    as exercise date, and an engine on the market data of the day. *)
Theorem widgets_to_instrument (today : ql.date) (st : ql.Settings)
    (k : ql.Barrier.type) (t : ql.Option.type)
    (sp K B r v q : float) (m : pydate) (d : ql.date) :
  ql.Date (day m) (month m) (year m) = Ok d ->
  d = ql.mk_date (day m) (month m) (year m)
  /\ setup today (mk_inputs sp K B r v q (option_label t) (kind_label k) m) st
     = (ql.mk_settings today,
        Ok (ql.mk_option k B 0 (ql.mk_payoff t K) (ql.mk_exercise d)
              (Some (ql.mk_engine
                       (market_data today
                          (mk_inputs sp K B r v q (option_label t) (kind_label k) m)))))).
Proof.
  intros Hd. split; [apply (Date_ok_inv _ _ _ _ Hd)|].
  rewrite (setup_found today
             (mk_inputs sp K B r v q (option_label t) (kind_label k) m) st d k
             Hd (barrier_map_label k)).
  cbn [option_type strike barrier maturity]. now destruct t.
Qed.

Lemma widgets_to_instrument_witness :
  ql.mk_date 4 11 2027 = ql.mk_date 4 11 2027
  /\ setup sample_today
       (mk_inputs 100 100 90 0.01 0.2 0 "Put" "Up-In" year_later) earlier_settings
     = (ql.mk_settings sample_today,
        Ok (ql.mk_option ql.Barrier.UpIn 90 0 (ql.mk_payoff ql.Option.Put 100)
              (ql.mk_exercise (ql.mk_date 4 11 2027))
              (Some (ql.mk_engine
                       (market_data sample_today
                          (mk_inputs 100 100 90 0.01 0.2 0 "Put" "Up-In" year_later)))))).
Proof.
  exact (widgets_to_instrument sample_today earlier_settings ql.Barrier.UpIn
           ql.Option.Put 100 100 90 0.01 0.2 0 year_later (ql.mk_date 4 11 2027)
           eq_refl).
Defined.

(** X10.  The diagram is the payoff policy of the instrument that is
    priced: whenever the set-up succeeds, with any option-type string, the
    values drawn over a grid are those of the policy for the instrument's
    own barrier type, option type, strike and barrier. *)
Theorem diagram_matches_instrument (today : ql.date) (inp : Inputs)
    (st st' : ql.Settings) (opt : ql.barrier_option) (S : list float) :
  setup today inp st = (st', Ok opt) ->
  List.map py_float
    (payoff_vals (barrier_type_str inp) (option_type inp) (strike inp) (barrier inp) S)
  = List.map
      (payoffAt (ql.barrierType opt) (ql.optionType (ql.payoff opt))
         (ql.po_strike (ql.payoff opt)) (ql.bo_barrier opt)) S.
Proof.
  intros Hs.
  destruct (setup_inv today inp st st' opt Hs) as (d & bt & _ & Hbt & Hfound).
  rewrite Hfound in Hs. injection Hs as _ <-.
  cbn [ql.barrierType ql.optionType ql.payoff ql.po_strike ql.bo_barrier].
  rewrite payoff_vals_map, List.map_map. apply List.map_ext. intros s.
  rewrite payoff_at_option_type, (barrier_map_inv _ _ Hbt).
  apply payoff_at_payoffAt.
Qed.

Lemma diagram_matches_instrument_witness :
  List.map py_float (payoff_vals "Down-Out" "Call" 100 120 [85; 130]%float)
  = List.map (payoffAt ql.Barrier.DownOut ql.Option.Call 100 120) [85; 130]%float.
Proof.
  exact (diagram_matches_instrument sample_today (default_inputs year_later)
           earlier_settings _ _ [85; 130]%float eq_refl).
Defined.

(** * The script as a whole (lines 22-88) *)

Section AppFacts.

Context {engine : ql.Engine}.
Variable linspace : float -> float -> Z -> list float.

(** The pricing block leaves the settings as it found them, whether it
    ends with numbers or with an exception. *)
Lemma pricing_settings opt st : fst (pricing opt st) = st.
Proof.
  unfold pricing, bind, call, ret.
  destruct (ql.NPV st opt) as [p|e]; [|reflexivity].
  destruct (nonzero p); [|reflexivity].
  destruct (ql.delta st opt); [|reflexivity].
  destruct (ql.gamma st opt); [|reflexivity].
  destruct (ql.vega st opt); [|reflexivity].
  destruct (ql.theta st opt); [|reflexivity].
  destruct (ql.rho st opt); reflexivity.
Qed.

(** X11.  However the script ends, with the six numbers, with a
    [KeyError] or with an exception of the engine, the global evaluation
    date it leaves behind is the day of the run. *)
Theorem run_leaves_today today inp st :
  ql.evaluationDate (fst (run today inp st)) = today
  /\ ql.evaluationDate (fst (script linspace today inp st)) = today.
Proof.
  assert (H : fst (run today inp st) = ql.mk_settings today).
  { unfold run, bind.
    destruct (setup today inp st) as [st1 [opt|e]] eqn:Hs;
      pose proof (setup_settings today inp st) as Hst; rewrite Hs in Hst;
      cbn [fst] in Hst; subst st1; [apply pricing_settings|reflexivity]. }
  split; [now rewrite H|].
  unfold script, bind, ret.
  destruct (run today inp st) as [st1 [res|e]]; cbn [fst] in *; now subst st1.
Qed.

(** X12.  An exception raised by the engine's price calculation ends the
    script with that exception: no Greek is asked for, no number is
    written and no figure is drawn, although the figure does not depend
    on the engine. *)
Theorem engine_error_ends_script today inp st st' opt e :
  setup today inp st = (st', Ok opt) ->
  ql.NPV st' opt = Raise e ->
  run today inp st = (st', Raise e)
  /\ script linspace today inp st = (st', Raise e).
Proof.
  intros Hs Hp.
  assert (H : run today inp st = (st', Raise e)).
  { unfold run, bind. rewrite Hs. now apply pricing_raise. }
  split; [exact H|]. unfold script, bind. now rewrite H.
Qed.

(** X13.  When the script reaches its end, the numbers written are those
    of the pricing block, and the figure has the three titles and a single
    trace named "Payoff", drawn as lines: its abscissas are the grid from
    half the spot to one and a half times the spot in 200 points, and its
    ordinates, one per abscissa, are the loop's values in grid order.  The
    figure is the same whatever the engine answered. *)
Theorem figure_of_successful_run today inp st st' res fig :
  script linspace today inp st = (st', Ok (res, fig)) ->
  let S := linspace (0.5 * spot inp)%float (1.5 * spot inp)%float 200 in
  run today inp st = (st', Ok res)
  /\ fig = go.mk_figure
             [go.mk_scatter S
                (List.map
                   (payoff_at (barrier_type_str inp) (option_type inp)
                      (strike inp) (barrier inp)) S)
                "lines" "Payoff"]
             (Some "Barrier Option Payoff") (Some "Underlying Price S")
             (Some "Payoff")
  /\ (forall t, In t (go.data fig) -> length (go.y t) = length (go.x t)).
Proof.
  unfold script, bind, ret. cbv zeta.
  destruct (run today inp st) as [st1 [r|e]]; [|discriminate].
  intros [= <- <- <-].
  assert (Hfig : draw linspace inp
                 = go.mk_figure
                     [go.mk_scatter
                        (linspace (0.5 * spot inp)%float (1.5 * spot inp)%float 200)
                        (List.map
                           (payoff_at (barrier_type_str inp) (option_type inp)
                              (strike inp) (barrier inp))
                           (linspace (0.5 * spot inp)%float (1.5 * spot inp)%float 200))
                        "lines" "Payoff"]
                     (Some "Barrier Option Payoff") (Some "Underlying Price S")
                     (Some "Payoff")).
  { unfold draw, payoff_plot. cbn [fst snd]. rewrite payoff_vals_map. reflexivity. }
  split; [reflexivity|]. split; [exact Hfig|].
  rewrite Hfig. cbn [go.data]. intros t [<-|[]]. cbn [go.x go.y].
  apply List.length_map.
Qed.

End AppFacts.

Lemma engine_error_ends_script_witness :
  @run (failing_engine "barrier touched") sample_today (default_inputs year_later)
    earlier_settings
  = (ql.mk_settings sample_today, Raise (RuntimeError "barrier touched"))
  /\ @script (failing_engine "barrier touched") end_points sample_today
       (default_inputs year_later) earlier_settings
     = (ql.mk_settings sample_today, Raise (RuntimeError "barrier touched")).
Proof.
  exact (@engine_error_ends_script (failing_engine "barrier touched") end_points
           sample_today (default_inputs year_later) earlier_settings _ _
           (RuntimeError "barrier touched") eq_refl eq_refl).
Defined.

Lemma figure_of_successful_run_witness :
  @run (constant_engine 5 1 2 3 4 6) sample_today
    (mk_inputs 100 100 90 0.01 0.2 0 "Call" "Down-Out" year_later) earlier_settings
  = (ql.mk_settings sample_today, Ok (mk_results 5 1 2 3 4 6))
  /\ go.mk_figure
       [go.mk_scatter [50; 150]%float [PyInt 0; PyFloat 50] "lines" "Payoff"]
       (Some "Barrier Option Payoff") (Some "Underlying Price S") (Some "Payoff")
     = go.mk_figure
         [go.mk_scatter (end_points (0.5 * 100) (1.5 * 100) 200)
            (List.map (payoff_at "Down-Out" "Call" 100 90)
               (end_points (0.5 * 100) (1.5 * 100) 200))
            "lines" "Payoff"]
         (Some "Barrier Option Payoff") (Some "Underlying Price S") (Some "Payoff")
  /\ (forall t,
         In t (go.data
                 (go.mk_figure
                    [go.mk_scatter [50; 150]%float [PyInt 0; PyFloat 50] "lines" "Payoff"]
                    (Some "Barrier Option Payoff") (Some "Underlying Price S")
                    (Some "Payoff"))) ->
         length (go.y t) = length (go.x t)).
Proof.
  exact (@figure_of_successful_run (constant_engine 5 1 2 3 4 6) end_points
           sample_today
           (mk_inputs 100 100 90 0.01 0.2 0 "Call" "Down-Out" year_later)
           earlier_settings (ql.mk_settings sample_today)
           (mk_results 5 1 2 3 4 6)
           (go.mk_figure
              [go.mk_scatter [50; 150]%float [PyInt 0; PyFloat 50] "lines" "Payoff"]
              (Some "Barrier Option Payoff") (Some "Underlying Price S")
              (Some "Payoff"))
           eq_refl).
Defined.
